(** * electron-emulator-detector: the detection function [checkEmulator]

    A shallow embedding of [checkEmulator] from [main.js] together with the
    properties of the report it returns.

    Modelling conventions.
    - A JavaScript string is a Rocq [string]; [toLowerCase] and [toUpperCase]
      convert the letters of the ASCII range and [substring] counts
      characters of that string.
    - A property that may be [undefined] is an [option string]; a template
      literal renders [None] as the text undefined.
    - [await q] inside [try { ... } catch (error) { ... }] is a [result]:
      the promise either resolves with a value of the shape the library
      documents, or rejects with an error whose [message] is a string.
    - The two locals [isEmulator] and [evidences] are threaded explicitly:
      every statement of the function body is a transformer of [Locals]. *)

From Stdlib Require Import String Ascii NArith.
From stdpp Require Import base option list gmap strings.

Local Open Scope string_scope.
Local Open Scope list_scope.

(** ** Strings as the code uses them *)

Module JsString.

Definition toLowerChar (c : ascii) : ascii :=
  let n := N_of_ascii c in
  if ((65 <=? n) && (n <=? 90))%N then ascii_of_N (n + 32) else c.

Definition toUpperChar (c : ascii) : ascii :=
  let n := N_of_ascii c in
  if ((97 <=? n) && (n <=? 122))%N then ascii_of_N (n - 32) else c.

Fixpoint toLowerCase (s : string) : string :=
  match s with
  | EmptyString => EmptyString
  | String c s' => String (toLowerChar c) (toLowerCase s')
  end.

Fixpoint toUpperCase (s : string) : string :=
  match s with
  | EmptyString => EmptyString
  | String c s' => String (toUpperChar c) (toUpperCase s')
  end.

(** [startsWith s p]: [p] is a prefix of [s]. *)
Fixpoint startsWith (s p : string) : bool :=
  match p, s with
  | EmptyString, _ => true
  | String _ _, EmptyString => false
  | String a p', String b s' => if Ascii.eqb a b then startsWith s' p' else false
  end.

(** [includes s sub]: [sub] occurs in [s] at some position. *)
Fixpoint includes (s sub : string) : bool :=
  startsWith s sub ||
  match s with
  | EmptyString => false
  | String _ s' => includes s' sub
  end.

(** [substring first last s]: the characters of [s] at the positions
    [first], ..., [last - 1] that exist. *)
Definition substring (first last : nat) (s : string) : string :=
  String.substring first (last - first) s.

(** The double quote character that the templates print around a value. *)
Definition dq : string := String (ascii_of_nat 34) EmptyString.

(** [x || ''] for a property that is a string or undefined. *)
Definition orEmpty (x : option string) : string :=
  match x with
  | Some s => s
  | None => EmptyString
  end.

(** Truthiness of a property that is a string or undefined. *)
Definition truthy (x : option string) : bool :=
  match x with
  | Some s => negb (String.eqb s EmptyString)
  | None => false
  end.

(** [${x}] in a template literal. *)
Definition show (x : option string) : string :=
  match x with
  | Some s => s
  | None => "undefined"
  end.

(** [x === lit] for a property that is a string or undefined. *)
Definition strictEq (x : option string) (lit : string) : bool :=
  match x with
  | Some s => String.eqb s lit
  | None => false
  end.

End JsString.

Import JsString.

(** ** Data model *)

(** Outcome of awaiting a promise inside a [try] block. *)
Inductive result (A : Type) : Type :=
| Resolved (value : A)
| Rejected (message : string).
Arguments Resolved {A} value.
Arguments Rejected {A} message.

(** What the [systeminformation] queries resolve to (the fields read here). *)
Record SystemData := { manufacturer : option string; model : option string }.
Record ChassisData := { type : option string }.
Record CpuData := { brand : option string }.
Record NetworkInterfaceData := { iface : string; mac : option string }.
Record BiosData := { vendor : option string }.
Record UuidData := { uuid_os : option string }.

(** [si]: one awaited result per query of the module. [chassis] and [uuid]
    are tested for truthiness by the code, so they may resolve to nothing. *)
Record SystemInformation := {
  system : result SystemData;
  chassis : result (option ChassisData);
  cpu : result CpuData;
  networkInterfaces : result (list NetworkInterfaceData);
  bios : result BiosData;
  uuid : result (option UuidData)
}.

(** [app.isPackaged], [process.env] and [process.platform]. *)
Record RuntimeContext := {
  isPackaged : bool;
  env : gmap string string;
  platform : string
}.

(** [fs.promises]: the awaited result of reading [/proc/1/cgroup]. *)
Record FileSystem := { proc_1_cgroup : result string }.

(** The two locals of [checkEmulator]. *)
Record Locals := { isEmulator : bool; evidences : list string }.

(** The object the function returns. *)
Module Report.
Record t := { is_emulator : bool; evidences : list string; os : string }.
End Report.

(** ** Statements over the locals *)

Definition Stmt := Locals -> Locals.

Definition initial : Locals := {| isEmulator := false; evidences := [] |}.

(** [isEmulator = true;] *)
Definition setEmulator : Stmt :=
  fun st => {| isEmulator := true; evidences := evidences st |}.

(** [evidences.push(text);] *)
Definition push (text : string) : Stmt :=
  fun st => {| isEmulator := isEmulator st; evidences := evidences st ++ [text] |}.

Definition skip : Stmt := fun st => st.

Definition seq (s1 s2 : Stmt) : Stmt := fun st => s2 (s1 st).
Declare Scope stmt_scope.
Delimit Scope stmt_scope with stmt.
Bind Scope stmt_scope with Stmt.
Notation "s1 ;; s2" := (seq s1 s2)
  (at level 100, s2 at level 200, right associativity) : stmt_scope.
Local Open Scope stmt_scope.

(** [if (c) { s }] *)
Definition when (c : bool) (s : Stmt) : Stmt := if c then s else skip.

(** [xs.forEach(x => { body })] *)
Fixpoint forEach {A : Type} (xs : list A) (body : A -> Stmt) : Stmt :=
  match xs with
  | [] => skip
  | x :: xs' => body x ;; forEach xs' body
  end.

(** [try { const v = await q; body } catch (error) { handler }]: the only
    point of the [try] block that can throw is the [await]. *)
Definition tryAwait {A : Type} (q : result A)
    (body : A -> Stmt) (handler : string -> Stmt) : Stmt :=
  match q with
  | Resolved v => body v
  | Rejected message => handler message
  end.

(** ** The body of [checkEmulator], block by block *)

(** *** 1. Development mode *)

Definition checkDevelopmentMode (isPackaged : bool) (env : gmap string string) : Stmt :=
  when (negb isPackaged)
    (setEmulator ;; push "app.isPackaged=false (development mode)") ;;
  when (strictEq (env !! "NODE_ENV") "development")
    (setEmulator ;; push "NODE_ENV=development").

(** *** 2. System manufacturer and model *)

Definition virtualizationIndicators : list string :=
  [ "vmware"; "virtualbox"; "qemu"; "kvm"; "hyper-v"; "parallels";
    "xen"; "bhyve"; "bochs"; "acrn"; "oracle"; "azure" ].

Definition systemEvidence (sys : SystemData) (indicator : string) : string :=
  "Detected virtualization indicator: " +:+ dq +:+ indicator +:+ dq +:+
  " in manufacturer/model (manufacturer: " +:+ dq +:+ show (manufacturer sys) +:+ dq +:+
  ", model: " +:+ dq +:+ show (model sys) +:+ dq +:+ ")".

Definition systemMatches (sys : SystemData) (indicator : string) : bool :=
  let manufacturer := toLowerCase (orEmpty (manufacturer sys)) in
  let model := toLowerCase (orEmpty (model sys)) in
  includes manufacturer indicator || includes model indicator.

Definition checkSystem (q : result SystemData) : Stmt :=
  tryAwait q
    (fun sys =>
       forEach virtualizationIndicators (fun indicator =>
         when (systemMatches sys indicator)
           (setEmulator ;; push (systemEvidence sys indicator))))
    (fun message => push ("Error detecting system virtualization: " +:+ message)).

(** *** 3. Chassis *)

Definition chassisMatches (ch : option ChassisData) : bool :=
  match ch with
  | Some c => truthy (type c) && includes (toLowerCase (orEmpty (type c))) "virtual"
  | None => false
  end.

Definition chassisEvidence (ch : option ChassisData) : string :=
  "Chassis type indicates virtualization: " +:+ dq +:+
  show (ch ≫= type) +:+ dq.

Definition checkChassis (q : result (option ChassisData)) : Stmt :=
  tryAwait q
    (fun ch => when (chassisMatches ch) (setEmulator ;; push (chassisEvidence ch)))
    (fun message => push ("Error retrieving chassis information: " +:+ message)).

(** *** 4. CPU *)

Definition cpuMatches (c : CpuData) : bool :=
  let cpuBrand := toLowerCase (orEmpty (brand c)) in
  includes cpuBrand "virtual" || includes cpuBrand "vmware" || includes cpuBrand "qemu".

Definition cpuEvidence (c : CpuData) : string :=
  "CPU brand indicates virtualization: " +:+ dq +:+ show (brand c) +:+ dq.

Definition checkCpu (q : result CpuData) : Stmt :=
  tryAwait q
    (fun c => when (cpuMatches c) (setEmulator ;; push (cpuEvidence c)))
    (fun message => push ("Error retrieving CPU information: " +:+ message)).

(** *** 5. Network interfaces *)

Definition virtualMacPrefixes : list string :=
  [ "00:05:69"; "00:0C:29"; "00:1C:14"; "00:50:56"; "00:1C:42"; "00:03:FF" ].

(** [iface.mac.substring(0, 8).toUpperCase()] *)
Definition macPrefix (m : string) : string := toUpperCase (substring 0 8 m).

Definition networkEvidence (i : NetworkInterfaceData) (prefix : string) : string :=
  "Network interface " +:+ iface i +:+ " has MAC address " +:+ show (mac i) +:+
  " with virtualization prefix (" +:+ prefix +:+ ")".

Definition checkInterface (i : NetworkInterfaceData) : Stmt :=
  when (truthy (mac i))
    (forEach virtualMacPrefixes (fun prefix =>
       when (String.eqb (macPrefix (orEmpty (mac i))) prefix)
         (setEmulator ;; push (networkEvidence i prefix)))).

Definition checkNetworkInterfaces (q : result (list NetworkInterfaceData)) : Stmt :=
  tryAwait q
    (fun netInterfaces => forEach netInterfaces checkInterface)
    (fun message => push ("Error retrieving network interface information: " +:+ message)).

(** *** 6. BIOS *)

Definition biosIndicators : list string :=
  [ "virtual"; "vmware"; "qemu"; "virtualbox"; "xen"; "parallels" ].

Definition biosMatches (b : BiosData) (indicator : string) : bool :=
  includes (toLowerCase (orEmpty (vendor b))) indicator.

Definition biosEvidence (b : BiosData) (indicator : string) : string :=
  "BIOS vendor indicates virtualization: " +:+ dq +:+ show (vendor b) +:+ dq +:+
  " contains " +:+ dq +:+ indicator +:+ dq.

Definition checkBios (q : result BiosData) : Stmt :=
  tryAwait q
    (fun b =>
       forEach biosIndicators (fun indicator =>
         when (biosMatches b indicator)
           (setEmulator ;; push (biosEvidence b indicator))))
    (fun message => push ("Error retrieving BIOS information: " +:+ message)).

(** *** 7. UUID *)

Definition uuidMatches (u : option UuidData) : bool :=
  match u with
  | Some d =>
      truthy (uuid_os d) &&
      (let uuidOs := toLowerCase (orEmpty (uuid_os d)) in
       includes uuidOs "vmware" || includes uuidOs "virtual" || includes uuidOs "vbox")
  | None => false
  end.

Definition uuidEvidence (u : option UuidData) : string :=
  "UUID indicates virtualization: " +:+ dq +:+ show (u ≫= uuid_os) +:+ dq.

Definition checkUuid (q : result (option UuidData)) : Stmt :=
  tryAwait q
    (fun u => when (uuidMatches u) (setEmulator ;; push (uuidEvidence u)))
    (fun message => push ("Error retrieving UUID information: " +:+ message)).

(** *** 8. Container control group (Linux) *)

Definition cgroupMatches (cgroup : string) : bool :=
  includes cgroup "docker" || includes cgroup "lxc".

Definition checkCgroup (platform : string) (q : result string) : Stmt :=
  when (String.eqb platform "linux")
    (tryAwait q
       (fun cgroup =>
          when (cgroupMatches cgroup)
            (setEmulator ;; push "Detected container environment via /proc/1/cgroup"))
       (fun _ => skip)).

(** *** 9. Container environment variables *)

Definition checkEnvironment (env : gmap string string) : Stmt :=
  when (truthy (env !! "DOCKER_CONTAINER") || truthy (env !! "CONTAINER"))
    (setEmulator ;; push "Environment variable indicates container/emulator environment").

(** *** Operating system name *)

Definition osName (platform : string) : string :=
  if String.eqb platform "win32" then "Windows"
  else if String.eqb platform "darwin" then "macOS"
  else platform.

(** *** The whole function *)

Definition body (ctx : RuntimeContext) (si : SystemInformation) (fs : FileSystem) : Stmt :=
  checkDevelopmentMode (isPackaged ctx) (env ctx) ;;
  checkSystem (system si) ;;
  checkChassis (chassis si) ;;
  checkCpu (cpu si) ;;
  checkNetworkInterfaces (networkInterfaces si) ;;
  checkBios (bios si) ;;
  checkUuid (uuid si) ;;
  checkCgroup (platform ctx) (proc_1_cgroup fs) ;;
  checkEnvironment (env ctx).

Definition checkEmulator (ctx : RuntimeContext) (si : SystemInformation)
    (fs : FileSystem) : Report.t :=
  let st := body ctx si fs initial in
  {| Report.is_emulator := isEmulator st;
     Report.evidences := evidences st;
     Report.os := osName (platform ctx) |}.

(** ** Reading the effect of a statement *)

(** What a statement records and whether it raises the flag, when run on
    its own from the initial locals. *)
Definition emitted (s : Stmt) : list string := evidences (s initial).
Definition raised (s : Stmt) : bool := isEmulator (s initial).

(** The entries pushed by the [catch] handlers are the ones whose text
    starts with the word Error; every other entry reports a detection. *)
Definition isErrorEvidence (e : string) : bool := startsWith e "Error ".
Definition isPositiveEvidence (e : string) : bool := negb (isErrorEvidence e).

(** A statement accumulates when it only appends to [evidences], only
    raises [isEmulator], does both independently of the locals it starts
    from, and raises the flag exactly when it records a positive entry. *)
Record Accumulates (s : Stmt) : Prop := {
  acc_evidences : forall st, evidences (s st) = evidences st ++ emitted s;
  acc_flag : forall st, isEmulator (s st) = isEmulator st || raised s;
  acc_verdict : raised s = existsb isPositiveEvidence (emitted s)
}.

(** ** The six blocks that query [si] *)

Inductive Probe : Type :=
| SystemProbe | ChassisProbe | CpuProbe | NetworkProbe | BiosProbe | UuidProbe.

Definition runProbe (p : Probe) (si : SystemInformation) : Stmt :=
  match p with
  | SystemProbe => checkSystem (system si)
  | ChassisProbe => checkChassis (chassis si)
  | CpuProbe => checkCpu (cpu si)
  | NetworkProbe => checkNetworkInterfaces (networkInterfaces si)
  | BiosProbe => checkBios (bios si)
  | UuidProbe => checkUuid (uuid si)
  end.

Definition failure {A : Type} (q : result A) : option string :=
  match q with
  | Resolved _ => None
  | Rejected message => Some message
  end.

(** The message of the error the probe's query rejected with, if it did. *)
Definition queryFailure (p : Probe) (si : SystemInformation) : option string :=
  match p with
  | SystemProbe => failure (system si)
  | ChassisProbe => failure (chassis si)
  | CpuProbe => failure (cpu si)
  | NetworkProbe => failure (networkInterfaces si)
  | BiosProbe => failure (bios si)
  | UuidProbe => failure (uuid si)
  end.

(** The text each [catch] handler pushes. *)
Definition errorEvidence (p : Probe) (message : string) : string :=
  match p with
  | SystemProbe => "Error detecting system virtualization: " +:+ message
  | ChassisProbe => "Error retrieving chassis information: " +:+ message
  | CpuProbe => "Error retrieving CPU information: " +:+ message
  | NetworkProbe => "Error retrieving network interface information: " +:+ message
  | BiosProbe => "Error retrieving BIOS information: " +:+ message
  | UuidProbe => "Error retrieving UUID information: " +:+ message
  end.

(** The form [Error retrieving <category> information: <message>]. *)
Definition retrievingError (category message : string) : string :=
  "Error retrieving " +:+ category +:+ " information: " +:+ message.

Definition category (p : Probe) : string :=
  match p with
  | SystemProbe => "system"
  | ChassisProbe => "chassis"
  | CpuProbe => "CPU"
  | NetworkProbe => "network interface"
  | BiosProbe => "BIOS"
  | UuidProbe => "UUID"
  end.

(** ** When the remaining blocks fire *)

(** An interface matches when it has a MAC address whose upper-cased first
    eight characters are one of the fixed prefixes. *)
Definition interfaceMatches (i : NetworkInterfaceData) : bool :=
  truthy (mac i) && bool_decide (macPrefix (orEmpty (mac i)) ∈ virtualMacPrefixes).

(** The control-group block fires on Linux when the file could be read and
    names one of the two container runtimes. *)
Definition cgroupPositive (platform : string) (q : result string) : bool :=
  String.eqb platform "linux" &&
  match q with
  | Resolved cgroup => cgroupMatches cgroup
  | Rejected _ => false
  end.

(** The environment block fires when one of the two variables is truthy. *)
Definition containerVariableSet (env : gmap string string) : bool :=
  truthy (env !! "DOCKER_CONTAINER") || truthy (env !! "CONTAINER").

(** The six probes in the order the body runs them. *)
Definition probes : list Probe :=
  [ SystemProbe; ChassisProbe; CpuProbe; NetworkProbe; BiosProbe; UuidProbe ].

(** ** Example hosts *)

(** A host on which only the BIOS query rejects. *)
Definition brokenBiosQuery : SystemInformation :=
  {| system := Rejected "EACCES"; chassis := Resolved None;
     cpu := Resolved {| brand := None |};
     networkInterfaces := Resolved [];
     bios := Rejected "spawn dmidecode ENOENT";
     uuid := Resolved None |}.

(** A host on which every query rejects with the same message. *)
Definition allRejected (message : string) : SystemInformation :=
  {| system := Rejected message; chassis := Rejected message;
     cpu := Rejected message; networkInterfaces := Rejected message;
     bios := Rejected message; uuid := Rejected message |}.

(** A packaged application with an empty environment. *)
Definition packagedOn (platform : string) : RuntimeContext :=
  {| isPackaged := true; env := ∅; platform := platform |}.

(** The first line of [/proc/1/cgroup] inside a Docker container. *)
Definition dockerCgroup : FileSystem :=
  {| proc_1_cgroup := Resolved "12:memory:/docker/4f1c2a9be0d3" |}.

Definition unreadableCgroup : FileSystem :=
  {| proc_1_cgroup := Rejected "ENOENT: no such file or directory, open /proc/1/cgroup" |}.

(** The clean physical host: a Dell notebook running Windows. *)
Definition dellInterfaces : list NetworkInterfaceData :=
  [ {| iface := "Ethernet"; mac := Some "a4:bb:6d:12:34:56" |};
    {| iface := "Loopback Pseudo-Interface 1"; mac := Some EmptyString |} ].

Definition dellUuid : option UuidData :=
  Some {| uuid_os := Some "4C4C4544-0042-3510-8053-B7C04F4E3332" |}.

Definition dellNotebook : SystemInformation :=
  {| system := Resolved {| manufacturer := Some "Dell Inc."; model := Some "XPS 13" |};
     chassis := Resolved (Some {| type := Some "Notebook" |});
     cpu := Resolved {| brand := Some "Intel(R) Core(TM) i7" |};
     networkInterfaces := Resolved dellInterfaces;
     bios := Resolved {| vendor := Some "Dell Inc." |};
     uuid := Resolved dellUuid |}.

(** Two snapshots that differ only in a variable the call does not read. *)
Definition shellContext (shell : string) : RuntimeContext :=
  {| isPackaged := true;
     env := {[ "SHELL" := shell; "NODE_ENV" := "production" ]};
     platform := "linux" |}.

(** ** The verdict as a formula over what the call reads *)

(** The query resolved and what it resolved to passes the test. *)
Definition resolvedAnd {A : Type} (q : result A) (test : A -> bool) : bool :=
  match q with
  | Resolved v => test v
  | Rejected _ => false
  end.

(** The condition of each block's [isEmulator = true], in body order. *)
Definition verdict (ctx : RuntimeContext) (si : SystemInformation)
    (fs : FileSystem) : bool :=
  negb (isPackaged ctx) ||
  strictEq (env ctx !! "NODE_ENV") "development" ||
  resolvedAnd (system si)
    (fun sys => existsb (systemMatches sys) virtualizationIndicators) ||
  resolvedAnd (chassis si) chassisMatches ||
  resolvedAnd (cpu si) cpuMatches ||
  resolvedAnd (networkInterfaces si) (existsb interfaceMatches) ||
  resolvedAnd (bios si) (fun b => existsb (biosMatches b) biosIndicators) ||
  resolvedAnd (uuid si) uuidMatches ||
  cgroupPositive (platform ctx) (proc_1_cgroup fs) ||
  containerVariableSet (env ctx).

(** ** Counting entries *)

Definition failed (si : SystemInformation) (p : Probe) : bool :=
  match queryFailure p si with
  | Some _ => true
  | None => false
  end.

(** The number of interfaces the network block iterates over; its handler
    pushes one entry when the query rejects. *)
Definition networkBound (q : result (list NetworkInterfaceData)) : nat :=
  match q with
  | Resolved netInterfaces => length netInterfaces
  | Rejected _ => 1
  end.

(** ** The same host, reporting its strings in another letter case *)



(** ** The window and the ready handler *)






Section Ready.

(** The two library functions the handler and [createWindow] call:
    [JSON.stringify(result, null, 2)] and [encodeURIComponent]. *)
Variable stringify : Report.t -> string.
Variable encodeURIComponent : string -> string.



End Ready.

(** More example hosts. *)
Definition unpackagedOn (platform : string) : RuntimeContext :=
  {| isPackaged := false; env := ∅; platform := platform |}.

Definition virtualBoxBios : BiosData := {| vendor := Some "innotek GmbH VirtualBox" |}.

(** A virtual machine in a container, started unpackaged in development
    mode, on which every check of every block succeeds. *)
Definition everySignalContext : RuntimeContext :=
  {| isPackaged := false;
     env := {[ "NODE_ENV" := "development"; "CONTAINER" := "docker" ]};
     platform := "linux" |}.

Definition everySignalHost : SystemInformation :=
  {| system := Resolved
       {| manufacturer := Some "VMware VirtualBox QEMU KVM Hyper-V Parallels";
          model := Some "Xen bhyve Bochs ACRN Oracle Azure" |};
     chassis := Resolved (Some {| type := Some "Virtual Machine" |});
     cpu := Resolved {| brand := Some "QEMU Virtual CPU" |};
     networkInterfaces := Resolved [ {| iface := "eth0"; mac := Some "00:50:56:01:02:03" |} ];
     bios := Resolved {| vendor := Some "VMware QEMU VirtualBox Xen Parallels" |};
     uuid := Resolved (Some {| uuid_os := Some "vmware-56 4d 8a" |}) |}.

(** ** Statement algebra *)

Lemma locals_eq (st st' : Locals) :
  isEmulator st = isEmulator st' -> evidences st = evidences st' -> st = st'.
Proof. destruct st, st'; simpl; congruence. Qed.

Lemma skip_accumulates : Accumulates skip.
Proof. split; intros; unfold emitted, raised, skip; simpl; auto using app_nil_r, orb_false_r. Qed.

(** [isEmulator = true; evidences.push(text)] for a text that reports a
    detection. *)
Lemma positive_accumulates text :
  isErrorEvidence text = false -> Accumulates (setEmulator ;; push text).
Proof.
  intros Htext. split; unfold emitted, raised, seq, setEmulator, push; simpl.
  - done.
  - intros st. by rewrite orb_true_r.
  - unfold isPositiveEvidence. by rewrite Htext.
Qed.

(** [evidences.push(text)] alone, in a handler. *)
Lemma error_accumulates text :
  isErrorEvidence text = true -> Accumulates (push text).
Proof.
  intros Htext. split; unfold emitted, raised, push; simpl.
  - done.
  - intros st. by rewrite orb_false_r.
  - unfold isPositiveEvidence. by rewrite Htext.
Qed.

Lemma emitted_seq s1 s2 :
  Accumulates s2 -> emitted (s1 ;; s2) = emitted s1 ++ emitted s2.
Proof. intros H2. unfold emitted at 1, seq. by rewrite acc_evidences. Qed.

Lemma raised_seq s1 s2 :
  Accumulates s2 -> raised (s1 ;; s2) = raised s1 || raised s2.
Proof. intros H2. unfold raised at 1, seq. by rewrite acc_flag. Qed.

Lemma seq_accumulates s1 s2 :
  Accumulates s1 -> Accumulates s2 -> Accumulates (s1 ;; s2).
Proof.
  intros H1 H2. split.
  - intros st. rewrite emitted_seq by done. unfold seq.
    by rewrite (acc_evidences _ H2), (acc_evidences _ H1), app_assoc.
  - intros st. rewrite raised_seq by done. unfold seq.
    by rewrite (acc_flag _ H2), (acc_flag _ H1), orb_assoc.
  - rewrite raised_seq, emitted_seq, existsb_app by done.
    by rewrite (acc_verdict _ H1), (acc_verdict _ H2).
Qed.

Lemma when_accumulates c s : Accumulates s -> Accumulates (when c s).
Proof. destruct c; simpl; auto using skip_accumulates. Qed.

Lemma forEach_accumulates {A} (xs : list A) body :
  (forall x, Accumulates (body x)) -> Accumulates (forEach xs body).
Proof.
  intros Hbody. induction xs as [|x xs IH]; simpl.
  - apply skip_accumulates.
  - by apply seq_accumulates.
Qed.

Lemma tryAwait_accumulates {A} (q : result A) body handler :
  (forall v, Accumulates (body v)) -> (forall m, Accumulates (handler m)) ->
  Accumulates (tryAwait q body handler).
Proof. destruct q; simpl; auto. Qed.

Lemma emitted_forEach {A} (xs : list A) body :
  (forall x, Accumulates (body x)) ->
  emitted (forEach xs body) = flat_map (fun x => emitted (body x)) xs.
Proof.
  intros Hbody. induction xs as [|x xs IH]; simpl; [done|].
  rewrite emitted_seq by by apply forEach_accumulates.
  by rewrite IH.
Qed.

Lemma emitted_when c s : emitted (when c s) = if c then emitted s else [].
Proof. by destruct c. Qed.

Ltac accumulate :=
  repeat lazymatch goal with
  | |- Accumulates skip => apply skip_accumulates
  | |- Accumulates (setEmulator ;; push _) => apply positive_accumulates; reflexivity
  | |- Accumulates (push _) => apply error_accumulates; reflexivity
  | |- Accumulates (_ ;; _) => apply seq_accumulates
  | |- Accumulates (when _ _) => apply when_accumulates
  | |- Accumulates (forEach _ _) => apply forEach_accumulates; intros ?; cbv beta
  | |- Accumulates (tryAwait _ _ _) => apply tryAwait_accumulates; intros ?; cbv beta
  end.

Lemma checkDevelopmentMode_accumulates p e : Accumulates (checkDevelopmentMode p e).
Proof. unfold checkDevelopmentMode. accumulate. Qed.

Lemma checkSystem_accumulates q : Accumulates (checkSystem q).
Proof. unfold checkSystem. accumulate. Qed.

Lemma checkChassis_accumulates q : Accumulates (checkChassis q).
Proof. unfold checkChassis. accumulate. Qed.

Lemma checkCpu_accumulates q : Accumulates (checkCpu q).
Proof. unfold checkCpu. accumulate. Qed.

Lemma checkInterface_accumulates i : Accumulates (checkInterface i).
Proof. unfold checkInterface. accumulate. Qed.

Lemma checkNetworkInterfaces_accumulates q : Accumulates (checkNetworkInterfaces q).
Proof. unfold checkNetworkInterfaces, checkInterface. accumulate. Qed.

Lemma checkBios_accumulates q : Accumulates (checkBios q).
Proof. unfold checkBios. accumulate. Qed.

Lemma checkUuid_accumulates q : Accumulates (checkUuid q).
Proof. unfold checkUuid. accumulate. Qed.

Lemma checkCgroup_accumulates p q : Accumulates (checkCgroup p q).
Proof. unfold checkCgroup. accumulate. Qed.

Lemma checkEnvironment_accumulates e : Accumulates (checkEnvironment e).
Proof. unfold checkEnvironment. accumulate. Qed.

Create HintDb accumulates.

#[local] Hint Resolve checkDevelopmentMode_accumulates checkSystem_accumulates
  checkChassis_accumulates checkCpu_accumulates checkInterface_accumulates
  checkNetworkInterfaces_accumulates checkBios_accumulates checkUuid_accumulates
  checkCgroup_accumulates checkEnvironment_accumulates : accumulates.

Lemma body_accumulates ctx si fs : Accumulates (body ctx si fs).
Proof.
  unfold body.
  repeat lazymatch goal with
  | |- Accumulates (_ ;; _) => apply seq_accumulates
  end; auto with accumulates.
Qed.

(** The report in terms of what the body accumulates. *)
Lemma checkEmulator_unfold ctx si fs :
  checkEmulator ctx si fs =
  {| Report.is_emulator := raised (body ctx si fs);
     Report.evidences := emitted (body ctx si fs);
     Report.os := osName (platform ctx) |}.
Proof. done. Qed.

Lemma emitted_body ctx si fs :
  emitted (body ctx si fs) =
    emitted (checkDevelopmentMode (isPackaged ctx) (env ctx)) ++
    emitted (checkSystem (system si)) ++
    emitted (checkChassis (chassis si)) ++
    emitted (checkCpu (cpu si)) ++
    emitted (checkNetworkInterfaces (networkInterfaces si)) ++
    emitted (checkBios (bios si)) ++
    emitted (checkUuid (uuid si)) ++
    emitted (checkCgroup (platform ctx) (proc_1_cgroup fs)) ++
    emitted (checkEnvironment (env ctx)).
Proof.
  unfold body.
  repeat (rewrite emitted_seq;
    [f_equal |
     repeat lazymatch goal with
     | |- Accumulates (_ ;; _) => apply seq_accumulates
     end; auto with accumulates]).
Qed.

(** ** The verdict *)

(** C1. The report has [is_emulator = true] exactly when its [evidences]
    hold at least one entry that is not an error entry; when every entry is
    an error entry, [is_emulator] is false. The error entries are the ones
    the [catch] handlers push. *)
Theorem is_emulator_iff_positive_evidence ctx si fs :
  let report := checkEmulator ctx si fs in
  (Report.is_emulator report = true <->
   exists e, e ∈ Report.evidences report /\ isErrorEvidence e = false) /\
  ((forall e, e ∈ Report.evidences report -> isErrorEvidence e = true) ->
   Report.is_emulator report = false) /\
  (forall p message, isErrorEvidence (errorEvidence p message) = true).
Proof.
  cbv zeta.
  cut ((Report.is_emulator (checkEmulator ctx si fs) = true <->
        exists e, e ∈ Report.evidences (checkEmulator ctx si fs) /\
                  isErrorEvidence e = false) /\
       ((forall e, e ∈ Report.evidences (checkEmulator ctx si fs) ->
                   isErrorEvidence e = true) ->
        Report.is_emulator (checkEmulator ctx si fs) = false)).
  { intros [Hiff Hall]. split; [exact Hiff|]. split; [exact Hall|].
    intros p message. by destruct p. }
  rewrite checkEmulator_unfold. simpl.
  rewrite (acc_verdict _ (body_accumulates ctx si fs)).
  assert (Hiff : existsb isPositiveEvidence (emitted (body ctx si fs)) = true <->
                 exists e, e ∈ emitted (body ctx si fs) /\ isErrorEvidence e = false).
  { rewrite existsb_exists. unfold isPositiveEvidence.
    split; intros (e & He & Hpos); exists e.
    - split; [by apply list_elem_of_In | by apply negb_true_iff].
    - split; [by apply list_elem_of_In | by apply negb_true_iff]. }
  split; [exact Hiff|].
  intros Hall. apply not_true_is_false. intros Htrue.
  apply Hiff in Htrue as (e & He & Hpos).
  specialize (Hall e He). congruence.
Qed.

(** ** What each block records *)

Lemma emitted_guarded_push c text :
  emitted (when c (setEmulator ;; push text)) = if c then [text] else [].
Proof. by destruct c. Qed.

Lemma flat_map_guard {A B} (f : A -> bool) (g : A -> B) (xs : list A) :
  flat_map (fun x => if f x then [g x] else []) xs = map g (List.filter f xs).
Proof.
  induction xs as [|x xs IH]; simpl; [done|].
  destruct (f x); simpl; by rewrite IH.
Qed.

Lemma emitted_checkDevelopmentMode p e :
  emitted (checkDevelopmentMode p e) =
    (if negb p then ["app.isPackaged=false (development mode)"] else []) ++
    (if strictEq (e !! "NODE_ENV") "development" then ["NODE_ENV=development"] else []).
Proof.
  unfold checkDevelopmentMode.
  rewrite emitted_seq by accumulate.
  by rewrite !emitted_guarded_push.
Qed.

Lemma emitted_checkSystem_resolved sys :
  emitted (checkSystem (Resolved sys)) =
    flat_map (fun indicator =>
                if systemMatches sys indicator
                then [systemEvidence sys indicator] else [])
             virtualizationIndicators.
Proof.
  unfold checkSystem, tryAwait.
  rewrite emitted_forEach by (intros ?; accumulate).
  apply flat_map_ext. intros indicator. apply emitted_guarded_push.
Qed.

Lemma emitted_checkInterface i :
  emitted (checkInterface i) =
    if truthy (mac i)
    then flat_map (fun prefix =>
                     if String.eqb (macPrefix (orEmpty (mac i))) prefix
                     then [networkEvidence i prefix] else [])
                  virtualMacPrefixes
    else [].
Proof.
  unfold checkInterface. rewrite emitted_when.
  destruct (truthy (mac i)); [|done].
  rewrite emitted_forEach by (intros ?; accumulate).
  apply flat_map_ext. intros prefix. apply emitted_guarded_push.
Qed.

Lemma emitted_checkNetworkInterfaces_resolved netInterfaces :
  emitted (checkNetworkInterfaces (Resolved netInterfaces)) =
    flat_map (fun i => emitted (checkInterface i)) netInterfaces.
Proof.
  unfold checkNetworkInterfaces, tryAwait.
  apply emitted_forEach. auto with accumulates.
Qed.

Lemma emitted_checkBios_resolved b :
  emitted (checkBios (Resolved b)) =
    flat_map (fun indicator =>
                if biosMatches b indicator
                then [biosEvidence b indicator] else [])
             biosIndicators.
Proof.
  unfold checkBios, tryAwait.
  rewrite emitted_forEach by (intros ?; accumulate).
  apply flat_map_ext. intros indicator. apply emitted_guarded_push.
Qed.

(** The prefix test picks at most one entry of the fixed list, because the
    computed prefix is compared for equality with each of them. *)
Lemma prefix_hits (A : Type) (p : string) (f : string -> A) :
  flat_map (fun prefix => if String.eqb p prefix then [f prefix] else [])
           virtualMacPrefixes =
  if bool_decide (p ∈ virtualMacPrefixes) then [f p] else [].
Proof.
  unfold virtualMacPrefixes.
  destruct (decide (p ∈ ["00:05:69"; "00:0C:29"; "00:1C:14"; "00:50:56"; "00:1C:42"; "00:03:FF"]))
    as [Hin|Hout].
  - rewrite bool_decide_eq_true_2 by done.
    repeat (apply elem_of_cons in Hin as [->|Hin]; [reflexivity|]).
    by apply elem_of_nil in Hin.
  - rewrite bool_decide_eq_false_2 by done.
    simpl. rewrite !app_nil_r || idtac.
    repeat match goal with
    | |- context [String.eqb p ?q] =>
        destruct (String.eqb_spec p q) as [->|_]; [exfalso; apply Hout; set_solver|]
    end.
    done.
Qed.

Lemma emitted_checkInterface_hit i :
  emitted (checkInterface i) =
    if interfaceMatches i
    then [networkEvidence i (macPrefix (orEmpty (mac i)))] else [].
Proof.
  rewrite emitted_checkInterface. unfold interfaceMatches.
  destruct (truthy (mac i)); [|done].
  apply prefix_hits.
Qed.

(** ** The system identity block *)

(** C3, as the code has it. For each indicator token, in the order of the
    list, the block records one entry when the token occurs in the
    lower-cased manufacturer or in the lower-cased model, and none
    otherwise. A token that occurs in both fields gets a single entry, which
    quotes both raw fields: the host of manufacturer VMware, Inc. and model
    VMware Virtual Platform gets exactly one entry, for the token vmware. *)
Theorem system_probe_one_evidence_per_token :
  (forall sys,
     emitted (checkSystem (Resolved sys)) =
       map (systemEvidence sys)
           (List.filter
              (fun indicator =>
                 includes (toLowerCase (orEmpty (manufacturer sys))) indicator ||
                 includes (toLowerCase (orEmpty (model sys))) indicator)
              virtualizationIndicators)) /\
  (let sys := {| manufacturer := Some "VMware, Inc.";
                 model := Some "VMware Virtual Platform" |} in
   emitted (checkSystem (Resolved sys)) = [systemEvidence sys "vmware"]).
Proof.
  split.
  - intros sys. rewrite emitted_checkSystem_resolved.
    apply (flat_map_guard (systemMatches sys)).
  - vm_compute. reflexivity.
Qed.

(** C3, as the claim states it, fails on the host it names: the token
    vmware occurs in both lower-cased fields, yet the block records one
    entry, not two distinct ones. *)
Lemma system_probe_two_entries_counterexample :
  let sys := {| manufacturer := Some "VMware, Inc.";
                model := Some "VMware Virtual Platform" |} in
  includes (toLowerCase (orEmpty (manufacturer sys))) "vmware" = true /\
  includes (toLowerCase (orEmpty (model sys))) "vmware" = true /\
  length (emitted (checkSystem (Resolved sys))) = 1 /\
  ~ (exists e1 e2, e1 <> e2 /\
       e1 ∈ emitted (checkSystem (Resolved sys)) /\
       e2 ∈ emitted (checkSystem (Resolved sys))).
Proof.
  cbv zeta. repeat split; try (vm_compute; reflexivity).
  intros (e1 & e2 & Hne & H1 & H2).
  assert (Hone : emitted (checkSystem (Resolved
            {| manufacturer := Some "VMware, Inc.";
               model := Some "VMware Virtual Platform" |})) =
          [systemEvidence {| manufacturer := Some "VMware, Inc.";
                             model := Some "VMware Virtual Platform" |} "vmware"])
    by (vm_compute; reflexivity).
  rewrite Hone in H1, H2.
  apply list_elem_of_singleton in H1, H2. congruence.
Qed.

Lemma toUpperCase_take n s :
  toUpperCase (String.substring 0 n s) = String.substring 0 n (toUpperCase s).
Proof.
  revert s. induction n as [|n IH]; intros [|c s]; simpl; try done.
  by rewrite IH.
Qed.

(** ** The network block *)

(** C4. An interface with a MAC address contributes exactly when the
    upper-cased first eight characters of the address are equal to one of
    the fixed prefixes, and then it contributes one entry, naming that
    prefix; the block records these entries interface by interface. The
    address 00:1C:14:AA:BB:CC matches the prefix 00:1C:14; the address
    001C:1400:00:00 matches nothing; an address that merely contains a
    prefix further to the right matches nothing either. Taking the first
    eight characters and upper-casing them gives the same as upper-casing
    the address and taking the first eight characters. *)
Theorem network_probe_compares_first_three_octets :
  (forall m, macPrefix m = substring 0 8 (toUpperCase m)) /\
  (forall i, interfaceMatches i = true <->
     exists m, mac i = Some m /\ m <> EmptyString /\
       toUpperCase (substring 0 8 m) ∈ virtualMacPrefixes) /\
  (forall i, emitted (checkInterface i) =
     if interfaceMatches i
     then [networkEvidence i (toUpperCase (substring 0 8 (orEmpty (mac i))))]
     else []) /\
  (forall netInterfaces,
     emitted (checkNetworkInterfaces (Resolved netInterfaces)) =
       map (fun i => networkEvidence i (toUpperCase (substring 0 8 (orEmpty (mac i)))))
           (List.filter interfaceMatches netInterfaces)) /\
  (forall name,
     emitted (checkInterface {| iface := name; mac := Some "00:1C:14:AA:BB:CC" |}) =
       [networkEvidence {| iface := name; mac := Some "00:1C:14:AA:BB:CC" |} "00:1C:14"]) /\
  (forall name,
     emitted (checkInterface {| iface := name; mac := Some "001C:1400:00:00" |}) = []) /\
  (includes (toUpperCase "02:00:1C:14:AA:BB") "00:1C:14" = true /\
   forall name,
     emitted (checkInterface {| iface := name; mac := Some "02:00:1C:14:AA:BB" |}) = []).
Proof.
  split; [|split; [|split; [|split; [|split; [|split]]]]].
  - intros m. apply toUpperCase_take.
  - intros i. unfold interfaceMatches, macPrefix.
    rewrite andb_true_iff, bool_decide_eq_true.
    destruct (mac i) as [m|]; simpl.
    + rewrite negb_true_iff. split.
      * intros [Hm Hin]. exists m. split; [done|]. split; [|done].
        intros ->. discriminate.
      * intros (m' & [= <-] & Hm & Hin). split; [|done].
        by apply String.eqb_neq.
    + split; [intros [? _]; discriminate | intros (m & ? & _); discriminate].
  - intros i. apply emitted_checkInterface_hit.
  - intros netInterfaces. rewrite emitted_checkNetworkInterfaces_resolved.
    rewrite <- flat_map_guard. apply flat_map_ext. intros i.
    apply emitted_checkInterface_hit.
  - intros name. rewrite emitted_checkInterface_hit. reflexivity.
  - intros name. rewrite emitted_checkInterface_hit. reflexivity.
  - split; [reflexivity|].
    intros name. rewrite emitted_checkInterface_hit. reflexivity.
Qed.

(** ** Failing queries *)

Lemma runProbe_rejected p si message :
  queryFailure p si = Some message ->
  runProbe p si = push (errorEvidence p message).
Proof.
  destruct p; cbn [queryFailure runProbe]; intros Hq.
  - destruct (system si); [discriminate|]. injection Hq as ->. reflexivity.
  - destruct (chassis si); [discriminate|]. injection Hq as ->. reflexivity.
  - destruct (cpu si); [discriminate|]. injection Hq as ->. reflexivity.
  - destruct (networkInterfaces si); [discriminate|]. injection Hq as ->. reflexivity.
  - destruct (bios si); [discriminate|]. injection Hq as ->. reflexivity.
  - destruct (uuid si); [discriminate|]. injection Hq as ->. reflexivity.
Qed.

Lemma errorEvidence_is_error p message :
  isErrorEvidence (errorEvidence p message) = true.
Proof. by destruct p. Qed.

(** C5, as the code has it. When the query of one of the six probes rejects
    with a message, the probe leaves [isEmulator] as it was and appends
    exactly one entry, an error entry. For the chassis, CPU, network, BIOS
    and UUID probes the entry has the form Error retrieving <category>
    information: <message>, with the categories chassis, CPU, network
    interface, BIOS and UUID; for the system identity probe it is Error
    detecting system virtualization: <message>. *)
Theorem query_failure_records_one_error p si message st :
  queryFailure p si = Some message ->
  runProbe p si st =
    {| isEmulator := isEmulator st;
       evidences := evidences st ++ [errorEvidence p message] |} /\
  isErrorEvidence (errorEvidence p message) = true /\
  errorEvidence p message =
    match p with
    | SystemProbe => "Error detecting system virtualization: " +:+ message
    | _ => retrievingError (category p) message
    end.
Proof.
  intros Hq. rewrite (runProbe_rejected _ _ _ Hq).
  split; [reflexivity|]. split; [apply errorEvidence_is_error|].
  by destruct p.
Qed.

Lemma query_failure_records_one_error_witness :
  queryFailure BiosProbe brokenBiosQuery = Some "spawn dmidecode ENOENT" /\
  runProbe BiosProbe brokenBiosQuery initial =
    {| isEmulator := false;
       evidences := ["Error retrieving BIOS information: spawn dmidecode ENOENT"] |}.
Proof.
  split; [reflexivity|].
  exact (proj1 (query_failure_records_one_error BiosProbe brokenBiosQuery
                  "spawn dmidecode ENOENT" initial eq_refl)).
Defined.

(** C5, as the claim states it, fails for the system identity probe: the
    entry its handler pushes is not of the form Error retrieving <category>
    information: <message>, whatever the category. *)
Lemma system_failure_form_counterexample :
  let si := {| system := Rejected "boom"; chassis := Rejected "boom";
               cpu := Rejected "boom"; networkInterfaces := Rejected "boom";
               bios := Rejected "boom"; uuid := Rejected "boom" |} in
  queryFailure SystemProbe si = Some "boom" /\
  emitted (runProbe SystemProbe si) = ["Error detecting system virtualization: boom"] /\
  ~ (exists category,
       emitted (runProbe SystemProbe si) = [retrievingError category "boom"]).
Proof.
  cbv zeta. split; [reflexivity|]. split; [reflexivity|].
  intros [category Heq]. vm_compute in Heq. discriminate Heq.
Qed.

(** ** Order of the entries *)

(** C6. The entries of the report are those of the nine blocks, in the
    order development mode, system identity, chassis, CPU, network, BIOS,
    UUID, control group, environment variables. Inside a block the entries
    follow the order of the checks: the packaging flag before NODE_ENV; the
    indicator tokens in the order of their list; the interfaces in the order
    returned and, for one interface, the prefixes in the order of their
    list. *)
Theorem evidences_in_probe_order :
  (forall ctx si fs,
     Report.evidences (checkEmulator ctx si fs) =
       emitted (checkDevelopmentMode (isPackaged ctx) (env ctx)) ++
       emitted (checkSystem (system si)) ++
       emitted (checkChassis (chassis si)) ++
       emitted (checkCpu (cpu si)) ++
       emitted (checkNetworkInterfaces (networkInterfaces si)) ++
       emitted (checkBios (bios si)) ++
       emitted (checkUuid (uuid si)) ++
       emitted (checkCgroup (platform ctx) (proc_1_cgroup fs)) ++
       emitted (checkEnvironment (env ctx))) /\
  (forall p e,
     emitted (checkDevelopmentMode p e) =
       (if negb p then ["app.isPackaged=false (development mode)"] else []) ++
       (if strictEq (e !! "NODE_ENV") "development"
        then ["NODE_ENV=development"] else [])) /\
  (forall sys,
     emitted (checkSystem (Resolved sys)) =
       flat_map (fun indicator =>
                   if systemMatches sys indicator
                   then [systemEvidence sys indicator] else [])
                virtualizationIndicators) /\
  (forall netInterfaces,
     emitted (checkNetworkInterfaces (Resolved netInterfaces)) =
       flat_map (fun i =>
                   if truthy (mac i)
                   then flat_map (fun prefix =>
                                    if String.eqb (macPrefix (orEmpty (mac i))) prefix
                                    then [networkEvidence i prefix] else [])
                                 virtualMacPrefixes
                   else [])
                netInterfaces) /\
  (forall b,
     emitted (checkBios (Resolved b)) =
       flat_map (fun indicator =>
                   if biosMatches b indicator
                   then [biosEvidence b indicator] else [])
                biosIndicators).
Proof.
  split; [|split; [|split; [|split]]].
  - intros ctx si fs. rewrite checkEmulator_unfold. apply emitted_body.
  - apply emitted_checkDevelopmentMode.
  - apply emitted_checkSystem_resolved.
  - intros netInterfaces. rewrite emitted_checkNetworkInterfaces_resolved.
    apply flat_map_ext. intros i. apply emitted_checkInterface.
  - apply emitted_checkBios_resolved.
Qed.

(** ** The blocks with a single check *)

Lemma emitted_checkChassis_resolved ch :
  emitted (checkChassis (Resolved ch)) =
    if chassisMatches ch then [chassisEvidence ch] else [].
Proof. apply emitted_guarded_push. Qed.

Lemma emitted_checkCpu_resolved c :
  emitted (checkCpu (Resolved c)) = if cpuMatches c then [cpuEvidence c] else [].
Proof. apply emitted_guarded_push. Qed.

Lemma emitted_checkUuid_resolved u :
  emitted (checkUuid (Resolved u)) = if uuidMatches u then [uuidEvidence u] else [].
Proof. apply emitted_guarded_push. Qed.

Lemma checkCgroup_run pl q st :
  checkCgroup pl q st =
    if cgroupPositive pl q
    then {| isEmulator := true;
            evidences := evidences st ++
                         ["Detected container environment via /proc/1/cgroup"] |}
    else st.
Proof.
  unfold checkCgroup, cgroupPositive.
  destruct (String.eqb pl "linux"); [|done].
  destruct q as [cgroup|message]; [|done].
  simpl. by destruct (cgroupMatches cgroup).
Qed.

Lemma emitted_checkCgroup pl q :
  emitted (checkCgroup pl q) =
    if cgroupPositive pl q
    then ["Detected container environment via /proc/1/cgroup"] else [].
Proof. unfold emitted. rewrite checkCgroup_run. by destruct (cgroupPositive pl q). Qed.

Lemma checkEnvironment_run e st :
  checkEnvironment e st =
    if containerVariableSet e
    then {| isEmulator := true;
            evidences := evidences st ++
              ["Environment variable indicates container/emulator environment"] |}
    else st.
Proof.
  unfold checkEnvironment. fold (containerVariableSet e).
  by destruct (containerVariableSet e).
Qed.

Lemma emitted_checkEnvironment e :
  emitted (checkEnvironment e) =
    if containerVariableSet e
    then ["Environment variable indicates container/emulator environment"] else [].
Proof. unfold emitted. rewrite checkEnvironment_run. by destruct (containerVariableSet e). Qed.

Lemma truthy_spec (x : option string) :
  truthy x = true <-> exists v, x = Some v /\ v <> EmptyString.
Proof.
  destruct x as [v|]; simpl.
  - rewrite negb_true_iff, String.eqb_neq. split.
    + intros Hv. by exists v.
    + by intros (v' & [= <-] & Hv).
  - split; [discriminate | by intros (v & ? & _)].
Qed.

(** The report is determined by the entries the blocks record. *)
Lemma checkEmulator_from_emitted ctx si fs :
  checkEmulator ctx si fs =
  {| Report.is_emulator := existsb isPositiveEvidence (emitted (body ctx si fs));
     Report.evidences := emitted (body ctx si fs);
     Report.os := osName (platform ctx) |}.
Proof.
  rewrite checkEmulator_unfold.
  by rewrite (acc_verdict _ (body_accumulates ctx si fs)).
Qed.

(** ** The control-group block *)

(** C8. The block appends its entry and raises the flag exactly when the
    platform is linux, the file was read, and its content contains docker
    or lxc. In every other case, among them any other platform and a file
    that cannot be read, it leaves the locals as they were: no entry of
    either kind. *)
Theorem container_probe_linux_only pl q st :
  (cgroupPositive pl q = true <->
   pl = "linux" /\
   exists cgroup, q = Resolved cgroup /\
     (includes cgroup "docker" = true \/ includes cgroup "lxc" = true)) /\
  checkCgroup pl q st =
    (if cgroupPositive pl q
     then {| isEmulator := true;
             evidences := evidences st ++
                          ["Detected container environment via /proc/1/cgroup"] |}
     else st) /\
  (pl <> "linux" -> checkCgroup pl q st = st) /\
  (forall message, checkCgroup pl (Rejected message) st = st).
Proof.
  split; [|split; [apply checkCgroup_run|split]].
  - unfold cgroupPositive, cgroupMatches.
    rewrite andb_true_iff, String.eqb_eq. split.
    + intros [Hpl Hq]. split; [done|].
      destruct q as [cgroup|message]; [|discriminate].
      exists cgroup. split; [done|]. by apply orb_true_iff.
    + intros [Hpl (cgroup & -> & Hc)]. split; [done|]. by apply orb_true_iff.
  - intros Hpl. rewrite checkCgroup_run. unfold cgroupPositive.
    apply String.eqb_neq in Hpl. by rewrite Hpl.
  - intros message. rewrite checkCgroup_run. unfold cgroupPositive.
    by rewrite andb_false_r.
Qed.

(** ** The environment-variable block *)

(** C10. The block fires exactly when DOCKER_CONTAINER or CONTAINER is set
    to a non-empty string. When it fires it raises the flag and appends one
    entry, also when both variables are set; otherwise it leaves the locals
    as they were, in particular when the variables that are set are set to
    the empty string. *)
Theorem container_variable_probe e st :
  (containerVariableSet e = true <->
   exists v, v <> EmptyString /\
     (e !! "DOCKER_CONTAINER" = Some v \/ e !! "CONTAINER" = Some v)) /\
  checkEnvironment e st =
    (if containerVariableSet e
     then {| isEmulator := true;
             evidences := evidences st ++
               ["Environment variable indicates container/emulator environment"] |}
     else st) /\
  (e !! "DOCKER_CONTAINER" ∈ [None; Some EmptyString] ->
   e !! "CONTAINER" ∈ [None; Some EmptyString] ->
   checkEnvironment e st = st) /\
  (forall v1 v2, v1 <> EmptyString -> v2 <> EmptyString ->
   e !! "DOCKER_CONTAINER" = Some v1 -> e !! "CONTAINER" = Some v2 ->
   emitted (checkEnvironment e) =
     ["Environment variable indicates container/emulator environment"]).
Proof.
  split; [|split; [apply checkEnvironment_run|split]].
  - unfold containerVariableSet. rewrite orb_true_iff, !truthy_spec. split.
    + intros [(v & Hv & Hne)|(v & Hv & Hne)]; exists v; auto.
    + intros (v & Hne & [Hv|Hv]); [left|right]; by exists v.
  - intros Hd Hc. rewrite checkEnvironment_run. unfold containerVariableSet.
    assert (Hfalsy : forall x : option string,
               x ∈ [None; Some EmptyString] -> truthy x = false).
    { intros x Hx. apply elem_of_cons in Hx as [->|Hx]; [done|].
      apply list_elem_of_singleton in Hx as ->. done. }
    by rewrite (Hfalsy _ Hd), (Hfalsy _ Hc).
  - intros v1 v2 Hv1 Hv2 Hd Hc. rewrite emitted_checkEnvironment.
    unfold containerVariableSet. rewrite Hd. simpl.
    apply String.eqb_neq in Hv1. by rewrite Hv1.
Qed.

(** ** Hosts on which nothing or everything fails *)

Lemma emitted_checkDevelopmentMode_packaged e :
  e !! "NODE_ENV" = None -> emitted (checkDevelopmentMode true e) = [].
Proof. intros He. rewrite emitted_checkDevelopmentMode, He. done. Qed.

Lemma emitted_checkEnvironment_unset e :
  e !! "DOCKER_CONTAINER" = None -> e !! "CONTAINER" = None ->
  emitted (checkEnvironment e) = [].
Proof.
  intros Hd Hc. rewrite emitted_checkEnvironment.
  unfold containerVariableSet. by rewrite Hd, Hc.
Qed.

Lemma rejected_of_failure {A} (q : result A) message :
  failure q = Some message -> q = Rejected message.
Proof. destruct q; simpl; congruence. Qed.

Lemma no_interface_matches netInterfaces :
  Forall (fun i => interfaceMatches i = false) netInterfaces ->
  emitted (checkNetworkInterfaces (Resolved netInterfaces)) = [].
Proof.
  intros Hall. rewrite emitted_checkNetworkInterfaces_resolved.
  induction Hall as [|i rest Hi _ IH]; simpl; [done|].
  by rewrite emitted_checkInterface_hit, Hi, IH.
Qed.

(** C2, as the code has it. When each of the six queries rejects, the
    application is packaged, none of NODE_ENV, DOCKER_CONTAINER and
    CONTAINER is set, and the control-group block does not fire (the
    platform is not linux, or the file cannot be read, or its content names
    neither docker nor lxc), the call returns a report with [is_emulator]
    false whose entries are the six error entries, one per query, in the
    order of the probes. *)
Theorem failing_queries_report ctx si fs (msg : Probe -> string) :
  (forall p, queryFailure p si = Some (msg p)) ->
  isPackaged ctx = true ->
  env ctx !! "NODE_ENV" = None ->
  env ctx !! "DOCKER_CONTAINER" = None ->
  env ctx !! "CONTAINER" = None ->
  cgroupPositive (platform ctx) (proc_1_cgroup fs) = false ->
  checkEmulator ctx si fs =
    {| Report.is_emulator := false;
       Report.evidences := map (fun p => errorEvidence p (msg p)) probes;
       Report.os := osName (platform ctx) |} /\
  Forall (fun e => isErrorEvidence e = true)
         (Report.evidences (checkEmulator ctx si fs)).
Proof.
  intros Hfail Hpackaged Hnode Hdocker Hcontainer Hcgroup.
  assert (Hentries : emitted (body ctx si fs) =
                     map (fun p => errorEvidence p (msg p)) probes).
  { rewrite emitted_body, Hpackaged.
    rewrite (emitted_checkDevelopmentMode_packaged _ Hnode).
    rewrite (emitted_checkEnvironment_unset _ Hdocker Hcontainer).
    rewrite emitted_checkCgroup, Hcgroup.
    rewrite (rejected_of_failure _ _ (Hfail SystemProbe)).
    rewrite (rejected_of_failure _ _ (Hfail ChassisProbe)).
    rewrite (rejected_of_failure _ _ (Hfail CpuProbe)).
    rewrite (rejected_of_failure _ _ (Hfail NetworkProbe)).
    rewrite (rejected_of_failure _ _ (Hfail BiosProbe)).
    rewrite (rejected_of_failure _ _ (Hfail UuidProbe)).
    reflexivity. }
  assert (Herrors : Forall (fun e => isErrorEvidence e = true)
                           (map (fun p => errorEvidence p (msg p)) probes)).
  { apply Forall_map, Forall_forall. intros p _. apply errorEvidence_is_error. }
  rewrite checkEmulator_from_emitted, Hentries. cbn [Report.evidences].
  split; [reflexivity | exact Herrors].
Qed.

Lemma failing_queries_report_witness :
  checkEmulator (packagedOn "linux") (allRejected "EPERM") unreadableCgroup =
    {| Report.is_emulator := false;
       Report.evidences :=
         [ "Error detecting system virtualization: EPERM";
           "Error retrieving chassis information: EPERM";
           "Error retrieving CPU information: EPERM";
           "Error retrieving network interface information: EPERM";
           "Error retrieving BIOS information: EPERM";
           "Error retrieving UUID information: EPERM" ];
       Report.os := "linux" |}.
Proof.
  apply (failing_queries_report (packagedOn "linux") (allRejected "EPERM")
           unreadableCgroup (fun _ => "EPERM")).
  - intros p. destruct p; reflexivity.
  - reflexivity.
  - reflexivity.
  - reflexivity.
  - reflexivity.
  - reflexivity.
Defined.

(** C2, as the claim states it, fails inside a Docker container: every
    query rejects, the application is packaged and the environment is
    empty, yet the control-group block fires, so the verdict is true and
    the entries are not all error entries. *)
Lemma failing_queries_in_container_counterexample :
  let ctx := packagedOn "linux" in
  let si := allRejected "EPERM" in
  (forall p, queryFailure p si = Some "EPERM") /\
  isPackaged ctx = true /\
  env ctx !! "NODE_ENV" = None /\
  env ctx !! "DOCKER_CONTAINER" = None /\
  env ctx !! "CONTAINER" = None /\
  Report.is_emulator (checkEmulator ctx si dockerCgroup) = true /\
  ~ Forall (fun e => isErrorEvidence e = true)
           (Report.evidences (checkEmulator ctx si dockerCgroup)).
Proof.
  cbv zeta. split; [intros p; by destruct p|].
  repeat (split; [reflexivity|]).
  intros Hall. rewrite Forall_forall in Hall.
  specialize (Hall "Detected container environment via /proc/1/cgroup").
  assert (Hin : "Detected container environment via /proc/1/cgroup"
                ∈ Report.evidences
                    (checkEmulator (packagedOn "linux") (allRejected "EPERM") dockerCgroup)).
  { vm_compute. set_solver. }
  specialize (Hall Hin). discriminate Hall.
Qed.

(** C7. On the clean physical host the call returns the report with
    [is_emulator] false, no entries, and the name Windows. *)
Theorem clean_physical_host_report ctx si fs netInterfaces u :
  isPackaged ctx = true ->
  env ctx !! "NODE_ENV" = None ->
  env ctx !! "DOCKER_CONTAINER" = None ->
  env ctx !! "CONTAINER" = None ->
  platform ctx = "win32" ->
  system si = Resolved {| manufacturer := Some "Dell Inc."; model := Some "XPS 13" |} ->
  chassis si = Resolved (Some {| type := Some "Notebook" |}) ->
  cpu si = Resolved {| brand := Some "Intel(R) Core(TM) i7" |} ->
  networkInterfaces si = Resolved netInterfaces ->
  Forall (fun i => interfaceMatches i = false) netInterfaces ->
  bios si = Resolved {| vendor := Some "Dell Inc." |} ->
  uuid si = Resolved u ->
  uuidMatches u = false ->
  checkEmulator ctx si fs =
    {| Report.is_emulator := false; Report.evidences := []; Report.os := "Windows" |}.
Proof.
  intros Hpackaged Hnode Hdocker Hcontainer Hplatform
         Hsystem Hchassis Hcpu Hnet Hmacs Hbios Huuid Hclean.
  assert (Hentries : emitted (body ctx si fs) = []).
  { rewrite emitted_body, Hpackaged, Hplatform.
    rewrite (emitted_checkDevelopmentMode_packaged _ Hnode).
    rewrite (emitted_checkEnvironment_unset _ Hdocker Hcontainer).
    rewrite Hsystem, Hchassis, Hcpu, Hnet, Hbios, Huuid.
    rewrite (no_interface_matches _ Hmacs).
    rewrite emitted_checkUuid_resolved, Hclean.
    reflexivity. }
  rewrite checkEmulator_from_emitted, Hentries, Hplatform. reflexivity.
Qed.

Lemma clean_physical_host_report_witness :
  checkEmulator (packagedOn "win32") dellNotebook unreadableCgroup =
    {| Report.is_emulator := false; Report.evidences := []; Report.os := "Windows" |}.
Proof.
  apply (clean_physical_host_report (packagedOn "win32") dellNotebook
           unreadableCgroup dellInterfaces dellUuid); try reflexivity.
  repeat constructor.
Defined.

(** ** Determinism *)

Lemma checkDevelopmentMode_reads p e1 e2 :
  e1 !! "NODE_ENV" = e2 !! "NODE_ENV" ->
  checkDevelopmentMode p e1 = checkDevelopmentMode p e2.
Proof. unfold checkDevelopmentMode. by intros ->. Qed.

Lemma checkEnvironment_reads e1 e2 :
  e1 !! "DOCKER_CONTAINER" = e2 !! "DOCKER_CONTAINER" ->
  e1 !! "CONTAINER" = e2 !! "CONTAINER" ->
  checkEnvironment e1 = checkEnvironment e2.
Proof. unfold checkEnvironment. by intros -> ->. Qed.

(** C9. The report is a function of what the call reads: two calls that
    see the same packaging flag, the same platform, the same values of the
    environment variables NODE_ENV, DOCKER_CONTAINER and CONTAINER, the same
    query results and the same control-group file return reports with the
    same verdict, the same entries in the same order, and the same name of
    the operating system. In particular two calls on one snapshot do. *)
Theorem checkEmulator_deterministic ctx1 ctx2 si1 si2 fs1 fs2 :
  isPackaged ctx1 = isPackaged ctx2 ->
  platform ctx1 = platform ctx2 ->
  (forall name, name ∈ ["NODE_ENV"; "DOCKER_CONTAINER"; "CONTAINER"] ->
                env ctx1 !! name = env ctx2 !! name) ->
  si1 = si2 ->
  fs1 = fs2 ->
  Report.is_emulator (checkEmulator ctx1 si1 fs1) =
    Report.is_emulator (checkEmulator ctx2 si2 fs2) /\
  Report.evidences (checkEmulator ctx1 si1 fs1) =
    Report.evidences (checkEmulator ctx2 si2 fs2) /\
  Report.os (checkEmulator ctx1 si1 fs1) = Report.os (checkEmulator ctx2 si2 fs2).
Proof.
  intros Hpackaged Hplatform Henv -> ->.
  assert (Hbody : body ctx1 si2 fs2 = body ctx2 si2 fs2).
  { unfold body. rewrite Hpackaged, Hplatform.
    rewrite (checkDevelopmentMode_reads _ (env ctx1) (env ctx2))
      by (apply Henv; set_solver).
    rewrite (checkEnvironment_reads (env ctx1) (env ctx2))
      by (apply Henv; set_solver).
    reflexivity. }
  unfold checkEmulator. cbn [Report.is_emulator Report.evidences Report.os].
  by rewrite Hbody, Hplatform.
Qed.

Lemma checkEmulator_deterministic_witness :
  Report.is_emulator (checkEmulator (shellContext "/bin/bash") dellNotebook dockerCgroup) =
    Report.is_emulator (checkEmulator (shellContext "/bin/zsh") dellNotebook dockerCgroup) /\
  Report.evidences (checkEmulator (shellContext "/bin/bash") dellNotebook dockerCgroup) =
    Report.evidences (checkEmulator (shellContext "/bin/zsh") dellNotebook dockerCgroup) /\
  Report.os (checkEmulator (shellContext "/bin/bash") dellNotebook dockerCgroup) =
    Report.os (checkEmulator (shellContext "/bin/zsh") dellNotebook dockerCgroup).
Proof.
  apply (checkEmulator_deterministic (shellContext "/bin/bash") (shellContext "/bin/zsh")
           dellNotebook dellNotebook dockerCgroup dockerCgroup); try reflexivity.
  intros name Hname.
  repeat (apply elem_of_cons in Hname as [->|Hname]; [reflexivity|]).
  by apply elem_of_nil in Hname.
Defined.

(** ** The verdict, block by block *)

Lemma raised_guarded_push c text :
  raised (when c (setEmulator ;; push text)) = c.
Proof. by destruct c. Qed.

Lemma existsb_pointwise {A} (f g : A -> bool) (xs : list A) :
  (forall x, f x = g x) -> existsb f xs = existsb g xs.
Proof. intros Hfg. induction xs as [|x xs IH]; simpl; [done|]. by rewrite Hfg, IH. Qed.

Lemma raised_forEach {A} (xs : list A) body :
  (forall x, Accumulates (body x)) ->
  raised (forEach xs body) = existsb (fun x => raised (body x)) xs.
Proof.
  intros Hbody. induction xs as [|x xs IH]; simpl; [done|].
  rewrite raised_seq by by apply forEach_accumulates.
  by rewrite IH.
Qed.

Lemma raised_checkDevelopmentMode p e :
  raised (checkDevelopmentMode p e) =
    negb p || strictEq (e !! "NODE_ENV") "development".
Proof.
  unfold checkDevelopmentMode.
  rewrite raised_seq by accumulate.
  by rewrite !raised_guarded_push.
Qed.

Lemma raised_checkSystem q :
  raised (checkSystem q) =
    resolvedAnd q (fun sys => existsb (systemMatches sys) virtualizationIndicators).
Proof.
  destruct q as [sys|message]; [|done].
  unfold checkSystem, tryAwait, resolvedAnd.
  rewrite raised_forEach by (intros ?; accumulate).
  apply existsb_pointwise. intros indicator. apply raised_guarded_push.
Qed.

Lemma raised_checkChassis q : raised (checkChassis q) = resolvedAnd q chassisMatches.
Proof. destruct q as [ch|message]; [apply raised_guarded_push|done]. Qed.

Lemma raised_checkCpu q : raised (checkCpu q) = resolvedAnd q cpuMatches.
Proof. destruct q as [c|message]; [apply raised_guarded_push|done]. Qed.

Lemma raised_checkInterface i : raised (checkInterface i) = interfaceMatches i.
Proof.
  rewrite (acc_verdict _ (checkInterface_accumulates i)).
  rewrite emitted_checkInterface_hit.
  by destruct (interfaceMatches i).
Qed.

Lemma raised_checkNetworkInterfaces q :
  raised (checkNetworkInterfaces q) = resolvedAnd q (existsb interfaceMatches).
Proof.
  destruct q as [netInterfaces|message]; [|done].
  unfold checkNetworkInterfaces, tryAwait, resolvedAnd.
  rewrite raised_forEach by auto with accumulates.
  apply existsb_pointwise. intros i. apply raised_checkInterface.
Qed.

Lemma raised_checkBios q :
  raised (checkBios q) =
    resolvedAnd q (fun b => existsb (biosMatches b) biosIndicators).
Proof.
  destruct q as [b|message]; [|done].
  unfold checkBios, tryAwait, resolvedAnd.
  rewrite raised_forEach by (intros ?; accumulate).
  apply existsb_pointwise. intros indicator. apply raised_guarded_push.
Qed.

Lemma raised_checkUuid q : raised (checkUuid q) = resolvedAnd q uuidMatches.
Proof. destruct q as [u|message]; [apply raised_guarded_push|done]. Qed.

Lemma raised_checkCgroup pl q : raised (checkCgroup pl q) = cgroupPositive pl q.
Proof. unfold raised. rewrite checkCgroup_run. by destruct (cgroupPositive pl q). Qed.

Lemma raised_checkEnvironment e : raised (checkEnvironment e) = containerVariableSet e.
Proof.
  unfold raised. rewrite checkEnvironment_run. by destruct (containerVariableSet e).
Qed.

Lemma raised_body ctx si fs :
  raised (body ctx si fs) =
    raised (checkDevelopmentMode (isPackaged ctx) (env ctx)) ||
    raised (checkSystem (system si)) ||
    raised (checkChassis (chassis si)) ||
    raised (checkCpu (cpu si)) ||
    raised (checkNetworkInterfaces (networkInterfaces si)) ||
    raised (checkBios (bios si)) ||
    raised (checkUuid (uuid si)) ||
    raised (checkCgroup (platform ctx) (proc_1_cgroup fs)) ||
    raised (checkEnvironment (env ctx)).
Proof.
  unfold body.
  repeat (rewrite raised_seq;
    [|repeat lazymatch goal with
      | |- Accumulates (_ ;; _) => apply seq_accumulates
      end; auto with accumulates]).
  by rewrite !orb_assoc.
Qed.

Lemma raised_body_verdict ctx si fs : raised (body ctx si fs) = verdict ctx si fs.
Proof.
  rewrite raised_body, raised_checkDevelopmentMode, raised_checkSystem,
    raised_checkChassis, raised_checkCpu, raised_checkNetworkInterfaces,
    raised_checkBios, raised_checkUuid, raised_checkCgroup,
    raised_checkEnvironment.
  reflexivity.
Qed.

(** X1. The verdict of the report is the disjunction of the conditions of
    the nine blocks: the application is not packaged, NODE_ENV is
    development, a system token matches, the chassis matches, the CPU
    matches, an interface matches, a BIOS token matches, the UUID matches,
    the control group names a container, a container variable is set. A
    query that rejects contributes nothing; no block ever lowers the flag. *)
Theorem is_emulator_is_verdict ctx si fs :
  Report.is_emulator (checkEmulator ctx si fs) = verdict ctx si fs.
Proof.
  rewrite checkEmulator_unfold. cbn [Report.is_emulator].
  apply raised_body_verdict.
Qed.

(** X2. An application that is not packaged is always reported as an
    emulator, whatever the hardware, the platform and the environment are
    and whichever queries fail; the first entry of the report says so. *)
Theorem unpackaged_is_flagged ctx si fs :
  isPackaged ctx = false ->
  Report.is_emulator (checkEmulator ctx si fs) = true /\
  exists rest,
    Report.evidences (checkEmulator ctx si fs) =
      "app.isPackaged=false (development mode)" :: rest.
Proof.
  intros Hdev. split.
  - rewrite checkEmulator_unfold. cbn [Report.is_emulator].
    rewrite raised_body_verdict. unfold verdict. by rewrite Hdev.
  - rewrite checkEmulator_unfold. cbn [Report.evidences].
    rewrite emitted_body, emitted_checkDevelopmentMode, Hdev. simpl.
    eexists. reflexivity.
Qed.

Lemma unpackaged_is_flagged_witness :
  Report.is_emulator (checkEmulator (unpackagedOn "win32") dellNotebook unreadableCgroup)
    = true /\
  exists rest,
    Report.evidences (checkEmulator (unpackagedOn "win32") dellNotebook unreadableCgroup) =
      "app.isPackaged=false (development mode)" :: rest.
Proof.
  apply (unpackaged_is_flagged (unpackagedOn "win32") dellNotebook unreadableCgroup).
  reflexivity.
Defined.

(** ** The name of the operating system *)

(** X3. The name in the report is never win32 or darwin; it is Windows
    exactly for the platforms win32 and Windows, macOS exactly for darwin
    and macOS, and the platform itself otherwise. Naming is idempotent. *)
Theorem osName_normalises p :
  osName p <> "win32" /\ osName p <> "darwin" /\
  (osName p = "Windows" <-> p = "win32" \/ p = "Windows") /\
  (osName p = "macOS" <-> p = "darwin" \/ p = "macOS") /\
  (p <> "win32" -> p <> "darwin" -> osName p = p) /\
  osName (osName p) = osName p.
Proof.
  unfold osName.
  destruct (String.eqb_spec p "win32") as [->|Hwin].
  { repeat split; try done; intros; try congruence; try discriminate; auto.
    all: try (destruct H; discriminate). }
  destruct (String.eqb_spec p "darwin") as [->|Hmac].
  { repeat split; try done; intros; try congruence; try discriminate; auto.
    all: try (destruct H; discriminate). }
  apply String.eqb_neq in Hwin as Hwin', Hmac as Hmac'.
  rewrite Hwin', Hmac'.
  repeat split; try done; intros; auto; try tauto.
  all: try (destruct H; [congruence|done]).
Qed.

(** ** Letter case *)






Section CaseChange.

(** A conversion that, like [toUpperCase] and [toLowerCase], changes nothing
    but the case of letters. *)
Variable f : string -> string.
Hypothesis lower_after : forall s, toLowerCase (f s) = toLowerCase s.
Hypothesis upper_after : forall s, toUpperCase (f s) = toUpperCase s.
Hypothesis take_after : forall n s, f (String.substring 0 n s) = String.substring 0 n (f s).
Hypothesis empty_after : forall s, String.eqb (f s) EmptyString = String.eqb s EmptyString.






















End CaseChange.








(** ** Overlapping BIOS tokens *)

Lemma startsWith_app_l s p q :
  startsWith s (p +:+ q) = true -> startsWith s p = true.
Proof.
  revert s. induction p as [|a p IH]; intros [|b s]; simpl; try done.
  destruct (Ascii.eqb a b); [apply IH|done].
Qed.

Lemma includes_app_l s p q :
  includes s (p +:+ q) = true -> includes s p = true.
Proof.
  induction s as [|c s IH]; cbn [includes]; rewrite !orb_true_iff.
  - intros [H|H]; [left; by apply startsWith_app_l with q|done].
  - intros [H|H]; [left; by apply startsWith_app_l with q|right; by apply IH].
Qed.

(** X5. The BIOS token virtualbox contains the token virtual, and both are
    checked: a vendor that matches virtualbox always matches virtual as
    well, so the BIOS block records at least two entries for it, the one for
    virtual before the one for virtualbox. *)
Theorem bios_virtualbox_counts_twice b :
  biosMatches b "virtualbox" = true ->
  biosMatches b "virtual" = true /\
  exists between rest,
    emitted (checkBios (Resolved b)) =
      biosEvidence b "virtual" :: between ++ biosEvidence b "virtualbox" :: rest.
Proof.
  intros Hbox.
  assert (Hvirtual : biosMatches b "virtual" = true).
  { unfold biosMatches in *. apply (includes_app_l _ "virtual" "box"). exact Hbox. }
  split; [exact Hvirtual|].
  rewrite emitted_checkBios_resolved. unfold biosIndicators.
  cbn [flat_map]. rewrite Hvirtual, Hbox.
  exists ((if biosMatches b "vmware" then [biosEvidence b "vmware"] else []) ++
          (if biosMatches b "qemu" then [biosEvidence b "qemu"] else [])).
  eexists. cbn [app]. rewrite <- app_assoc. reflexivity.
Qed.

Lemma bios_virtualbox_counts_twice_witness :
  biosMatches virtualBoxBios "virtual" = true /\
  exists between rest,
    emitted (checkBios (Resolved virtualBoxBios)) =
      biosEvidence virtualBoxBios "virtual" ::
      between ++ biosEvidence virtualBoxBios "virtualbox" :: rest.
Proof.
  apply (bios_virtualbox_counts_twice virtualBoxBios). reflexivity.
Defined.

(** ** How many entries a report can have *)

Lemma length_guarded_le {A B} (t : A -> bool) (g : A -> B) (xs : list A) :
  length (flat_map (fun x => if t x then [g x] else []) xs) <= length xs.
Proof.
  induction xs as [|x xs IH]; simpl; [done|].
  rewrite length_app. destruct (t x); simpl; lia.
Qed.

Lemma length_checkDevelopmentMode p e : length (emitted (checkDevelopmentMode p e)) <= 2.
Proof.
  rewrite emitted_checkDevelopmentMode, length_app.
  destruct (negb p), (strictEq (e !! "NODE_ENV") "development"); simpl; lia.
Qed.

Lemma length_checkSystem q : length (emitted (checkSystem q)) <= 12.
Proof.
  destruct q as [sys|message]; [|simpl; lia].
  rewrite emitted_checkSystem_resolved. apply (length_guarded_le _ _ virtualizationIndicators).
Qed.

Lemma length_checkChassis q : length (emitted (checkChassis q)) <= 1.
Proof.
  destruct q as [ch|message]; [|simpl; lia].
  rewrite emitted_checkChassis_resolved. destruct (chassisMatches ch); simpl; lia.
Qed.

Lemma length_checkCpu q : length (emitted (checkCpu q)) <= 1.
Proof.
  destruct q as [c|message]; [|simpl; lia].
  rewrite emitted_checkCpu_resolved. destruct (cpuMatches c); simpl; lia.
Qed.

Lemma length_checkNetworkInterfaces q :
  length (emitted (checkNetworkInterfaces q)) <= networkBound q.
Proof.
  destruct q as [netInterfaces|message]; [|simpl; lia].
  rewrite emitted_checkNetworkInterfaces_resolved. cbn [networkBound].
  induction netInterfaces as [|i rest IH]; simpl; [done|].
  rewrite length_app, emitted_checkInterface_hit.
  destruct (interfaceMatches i); simpl; lia.
Qed.

Lemma length_checkBios q : length (emitted (checkBios q)) <= 6.
Proof.
  destruct q as [b|message]; [|simpl; lia].
  rewrite emitted_checkBios_resolved. apply (length_guarded_le _ _ biosIndicators).
Qed.

Lemma length_checkUuid q : length (emitted (checkUuid q)) <= 1.
Proof.
  destruct q as [u|message]; [|simpl; lia].
  rewrite emitted_checkUuid_resolved. destruct (uuidMatches u); simpl; lia.
Qed.

Lemma length_checkCgroup pl q : length (emitted (checkCgroup pl q)) <= 1.
Proof. rewrite emitted_checkCgroup. destruct (cgroupPositive pl q); simpl; lia. Qed.

Lemma length_checkEnvironment e : length (emitted (checkEnvironment e)) <= 1.
Proof. rewrite emitted_checkEnvironment. destruct (containerVariableSet e); simpl; lia. Qed.

(** X6. A report has at most 25 entries besides those of the network
    block, which records at most one entry per interface (one entry when
    its query rejects); the bound is reached by a host on which every
    check succeeds. *)
Theorem evidences_bounded :
  (forall ctx si fs,
     length (Report.evidences (checkEmulator ctx si fs)) <=
       25 + networkBound (networkInterfaces si)) /\
  length (Report.evidences (checkEmulator everySignalContext everySignalHost dockerCgroup)) =
    25 + networkBound (networkInterfaces everySignalHost).
Proof.
  split; [|vm_compute; reflexivity].
  intros ctx si fs. rewrite checkEmulator_unfold. cbn [Report.evidences].
  rewrite emitted_body, !length_app.
  pose proof (length_checkDevelopmentMode (isPackaged ctx) (env ctx)).
  pose proof (length_checkSystem (system si)).
  pose proof (length_checkChassis (chassis si)).
  pose proof (length_checkCpu (cpu si)).
  pose proof (length_checkNetworkInterfaces (networkInterfaces si)).
  pose proof (length_checkBios (bios si)).
  pose proof (length_checkUuid (uuid si)).
  pose proof (length_checkCgroup (platform ctx) (proc_1_cgroup fs)).
  pose proof (length_checkEnvironment (env ctx)).
  lia.
Qed.

(** ** The error entries of a report *)

Lemma filter_guarded_positive {A} (t : A -> bool) (g : A -> string) (xs : list A) :
  (forall x, isErrorEvidence (g x) = false) ->
  List.filter isErrorEvidence (flat_map (fun x => if t x then [g x] else []) xs) = [].
Proof.
  intros Hg. induction xs as [|x xs IH]; simpl; [done|].
  rewrite List.filter_app, IH, app_nil_r.
  destruct (t x); simpl; [by rewrite Hg|done].
Qed.

Lemma errors_checkDevelopmentMode p e :
  List.filter isErrorEvidence (emitted (checkDevelopmentMode p e)) = [].
Proof.
  rewrite emitted_checkDevelopmentMode.
  by destruct (negb p), (strictEq (e !! "NODE_ENV") "development").
Qed.

Lemma errors_checkSystem q :
  List.filter isErrorEvidence (emitted (checkSystem q)) =
    match q with
    | Resolved _ => []
    | Rejected message => [errorEvidence SystemProbe message]
    end.
Proof.
  destruct q as [sys|message]; [|done].
  rewrite emitted_checkSystem_resolved. by apply filter_guarded_positive.
Qed.

Lemma errors_checkChassis q :
  List.filter isErrorEvidence (emitted (checkChassis q)) =
    match q with
    | Resolved _ => []
    | Rejected message => [errorEvidence ChassisProbe message]
    end.
Proof.
  destruct q as [ch|message]; [|done].
  rewrite emitted_checkChassis_resolved. by destruct (chassisMatches ch).
Qed.

Lemma errors_checkCpu q :
  List.filter isErrorEvidence (emitted (checkCpu q)) =
    match q with
    | Resolved _ => []
    | Rejected message => [errorEvidence CpuProbe message]
    end.
Proof.
  destruct q as [c|message]; [|done].
  rewrite emitted_checkCpu_resolved. by destruct (cpuMatches c).
Qed.

Lemma errors_checkNetworkInterfaces q :
  List.filter isErrorEvidence (emitted (checkNetworkInterfaces q)) =
    match q with
    | Resolved _ => []
    | Rejected message => [errorEvidence NetworkProbe message]
    end.
Proof.
  destruct q as [netInterfaces|message]; [|done].
  rewrite emitted_checkNetworkInterfaces_resolved.
  induction netInterfaces as [|i rest IH]; simpl; [done|].
  rewrite List.filter_app, IH, app_nil_r, emitted_checkInterface_hit.
  by destruct (interfaceMatches i).
Qed.

Lemma errors_checkBios q :
  List.filter isErrorEvidence (emitted (checkBios q)) =
    match q with
    | Resolved _ => []
    | Rejected message => [errorEvidence BiosProbe message]
    end.
Proof.
  destruct q as [b|message]; [|done].
  rewrite emitted_checkBios_resolved. by apply filter_guarded_positive.
Qed.

Lemma errors_checkUuid q :
  List.filter isErrorEvidence (emitted (checkUuid q)) =
    match q with
    | Resolved _ => []
    | Rejected message => [errorEvidence UuidProbe message]
    end.
Proof.
  destruct q as [u|message]; [|done].
  rewrite emitted_checkUuid_resolved. by destruct (uuidMatches u).
Qed.

Lemma errors_checkCgroup pl q :
  List.filter isErrorEvidence (emitted (checkCgroup pl q)) = [].
Proof. rewrite emitted_checkCgroup. by destruct (cgroupPositive pl q). Qed.

Lemma errors_checkEnvironment e :
  List.filter isErrorEvidence (emitted (checkEnvironment e)) = [].
Proof. rewrite emitted_checkEnvironment. by destruct (containerVariableSet e). Qed.

Lemma errors_body ctx si fs :
  List.filter isErrorEvidence (emitted (body ctx si fs)) =
    omap (fun p => errorEvidence p <$> queryFailure p si) probes.
Proof.
  rewrite emitted_body, !List.filter_app.
  rewrite errors_checkDevelopmentMode, errors_checkSystem, errors_checkChassis,
    errors_checkCpu, errors_checkNetworkInterfaces, errors_checkBios,
    errors_checkUuid, errors_checkCgroup, errors_checkEnvironment.
  unfold probes. cbn [omap list_omap queryFailure].
  by destruct (system si), (chassis si), (cpu si), (networkInterfaces si),
    (bios si), (uuid si).
Qed.

(** X7. The error entries of a report are exactly the entries of the
    handlers of the queries that rejected, one for each, in the order of
    the probes. Nothing else produces an error entry: not a query that
    resolves, and not the control-group file when it cannot be read. *)
Theorem error_entries_are_failed_queries ctx si fs :
  List.filter isErrorEvidence (Report.evidences (checkEmulator ctx si fs)) =
    omap (fun p => errorEvidence p <$> queryFailure p si) probes /\
  length (List.filter isErrorEvidence (Report.evidences (checkEmulator ctx si fs))) =
    length (List.filter (failed si) probes).
Proof.
  rewrite checkEmulator_unfold. cbn [Report.evidences]. rewrite errors_body.
  split; [reflexivity|].
  unfold probes, failed. cbn [omap list_omap List.filter queryFailure].
  by destruct (system si), (chassis si), (cpu si), (networkInterfaces si),
    (bios si), (uuid si).
Qed.

(** ** The window and the ready handler *)


(** ** Reports with a negative verdict *)

Lemma filter_errors_all (entries : list string) :
  existsb isPositiveEvidence entries = false ->
  List.filter isErrorEvidence entries = entries.
Proof.
  induction entries as [|e entries IH]; simpl; [done|].
  unfold isPositiveEvidence at 1. intros Hnone.
  apply orb_false_iff in Hnone as [He Hrest].
  apply negb_false_iff in He. by rewrite He, IH.
Qed.

(** X9. A report says [is_emulator = false] exactly when its entries are
    the error entries of the queries that rejected and nothing else; with
    no query rejecting, a negative report has no entries at all. *)
Theorem negative_report_lists_failures ctx si fs :
  Report.is_emulator (checkEmulator ctx si fs) = false <->
  Report.evidences (checkEmulator ctx si fs) =
    omap (fun p => errorEvidence p <$> queryFailure p si) probes.
Proof.
  split.
  - intros Hclean. rewrite checkEmulator_from_emitted in Hclean |- *.
    cbn [Report.is_emulator Report.evidences] in *.
    rewrite <- (errors_body ctx si fs). symmetry. by apply filter_errors_all.
  - intros Hentries. rewrite checkEmulator_from_emitted in Hentries |- *.
    cbn [Report.is_emulator Report.evidences] in *. rewrite Hentries.
    unfold probes. cbn [omap list_omap queryFailure].
    by destruct (system si), (chassis si), (cpu si), (networkInterfaces si),
      (bios si), (uuid si).
Qed.
